(** * snapcraft.storeapi._client: the store HTTP client

    A shallow embedding of [src/snapcraft/storeapi/_client.py] (class
    [Client]: [__init__], [request], [get], [post], [put]) together with the
    properties its specification states about it.

    Python objects that are shared and mutated (the header dictionaries) live
    in an explicit heap; exceptions are an explicit result type; the
    [requests] session is a parameter of the development. *)

From Stdlib Require Import ZArith String Ascii List Lia.
From stdpp Require Import gmap strings list fin_maps.

Open Scope string_scope.
Open Scope Z_scope.

(* ===================================================================== *)
(** * Python values, heap, exceptions *)
(* ===================================================================== *)

Module Py.

(** A reference to a dictionary object. *)
Definition loc := positive.

(** The heap of [dict] objects with [str] keys and [str] values: header
    mappings are such dictionaries, and they are passed by reference. *)
Abbreviation heap := (gmap positive (gmap string string)).

(** The values that reach [request] as arguments. *)
Inductive value :=
| VNone
| VStr (s : string)
| VInt (n : Z)
| VDict (l : loc).

(** Python truthiness, as tested by [if headers:]. An empty dictionary and
    [None] are false. *)
Definition truthy (σ : heap) (v : value) : bool :=
  match v with
  | VNone => false
  | VStr s => negb (String.eqb s "")
  | VInt n => negb (n =? 0)
  | VDict l =>
      match σ !! l with
      | Some d => negb (bool_decide (d = ∅))
      | None => false
      end
  end.

(** [d.update(other)]: every entry of [other] is written into [d]; on a
    common key the entry of [other] replaces the one of [d]. *)
Definition dict_update (d other : gmap string string) : gmap string string :=
  other ∪ d.

(** An HTTP response as the client sees it. *)
Record Response := {
  status_code : Z;
  headers : list (string * string);
  content : string
}.

(** Exceptions. [ConnectionError] and [RetryError] are instances of the
    two classes of [requests.exceptions] the client imports.
    [TransportError cls bases msg] is an exception of any other class
    [cls] raised by the session; [bases] names the classes [cls] inherits
    from, so that [isinstance] can be decided on it. *)
Inductive exc :=
| ConnectionError (msg : string)
| RetryError (msg : string)
| TransportError (cls : string) (bases : list string) (msg : string)
| StoreNetworkError (exception : exc)
| StoreServerError (response : Response)
| TypeError (msg : string)
| AttributeError (msg : string)
| ValueError (msg : string).

(** The outcome of a call: a returned value, or a raised exception with its
    [__cause__] (set by [raise ... from e]). *)
Inductive result (A : Type) :=
| Return (a : A)
| Raise (e : exc) (cause : option exc).
Arguments Return {A} a.
Arguments Raise {A} e cause.

(** ** [int(str)] in base 10, on ASCII strings *)

(** The blanks [int] strips from an ASCII string: tab, line feed, vertical
    tab, form feed, carriage return and space. *)
Definition is_space (a : ascii) : bool :=
  let n := nat_of_ascii a in
  ((9 <=? n)%nat && (n <=? 13)%nat) || (n =? 32)%nat.

Definition digit_of (a : ascii) : option Z :=
  let n := nat_of_ascii a in
  if ((48 <=? n)%nat && (n <=? 57)%nat) then Some (Z.of_nat n - 48) else None.

Fixpoint lstrip (s : string) : string :=
  match s with
  | String a s' => if is_space a then lstrip s' else s
  | EmptyString => EmptyString
  end.

Fixpoint rstrip (s : string) : string :=
  match s with
  | String a s' =>
      match rstrip s' with
      | EmptyString => if is_space a then EmptyString else String a EmptyString
      | r => String a r
      end
  | EmptyString => EmptyString
  end.

Definition strip (s : string) : string := rstrip (lstrip s).

(** Decimal digits, where single underscores may separate digits. *)
Fixpoint digits (s : string) (acc : Z) (after_digit : bool) : option Z :=
  match s with
  | EmptyString => if after_digit then Some acc else None
  | String a s' =>
      match digit_of a with
      | Some d => digits s' (10 * acc + d) true
      | None =>
          if Ascii.eqb a "_" then
            if after_digit then digits s' acc false else None
          else None
      end
  end.

(** [int(s)] for a string [s]: [None] stands for [ValueError]. *)
Definition int_of_str (s : string) : option Z :=
  match strip s with
  | String "+" r => digits r 0 false
  | String "-" r => Z.opp <$> digits r 0 false
  | t => digits t 0 false
  end.

(** [int(os.environ.get(name, default))] where [default] is an [int]:
    when the variable is unset, [get] returns the integer default and
    [int] is the identity on it. *)
Definition int_env (environ : gmap string string) (name : string) (default : Z)
  : result Z :=
  match environ !! name with
  | None => Return default
  | Some s =>
      match int_of_str s with
      | Some n => Return n
      | None => Raise (ValueError "invalid literal for int() with base 10") None
      end
  end.

End Py.
Export Py.

(* ===================================================================== *)
(** * URL resolution *)
(* ===================================================================== *)

Module Url.

(** [s.split(c)]: the pieces of [s] between the occurrences of [c]; never
    the empty list. *)
Fixpoint split (c : ascii) (s : string) : list string :=
  match s with
  | EmptyString => [EmptyString]
  | String a s' =>
      if Ascii.eqb a c then EmptyString :: split c s'
      else
        match split c s' with
        | h :: t => String a h :: t
        | [] => [String a EmptyString]
        end
  end.

(** [sep.join(l)]. *)
Fixpoint join (sep : string) (l : list string) : string :=
  match l with
  | [] => EmptyString
  | [x] => x
  | x :: t => x ++ sep ++ join sep t
  end.

Definition is_alpha (a : ascii) : bool :=
  let n := nat_of_ascii a in
  ((65 <=? n)%nat && (n <=? 90)%nat) || ((97 <=? n)%nat && (n <=? 122)%nat).

Definition is_scheme_char (a : ascii) : bool :=
  let n := nat_of_ascii a in
  is_alpha a || ((48 <=? n)%nat && (n <=? 57)%nat)
  || Ascii.eqb a "+" || Ascii.eqb a "-" || Ascii.eqb a ".".

(** The scheme of a URL with the colon that ends it, and what follows; the
    scheme is empty when the string does not start with one. *)
Fixpoint scan_scheme (s : string) : option (string * string) :=
  match s with
  | EmptyString => None
  | String a s' =>
      if Ascii.eqb a ":" then Some (":", s')
      else if is_scheme_char a then
        match scan_scheme s' with
        | Some (sch, rest) => Some (String a sch, rest)
        | None => None
        end
      else None
  end.

Definition split_scheme (s : string) : string * string :=
  match s with
  | String a _ =>
      if is_alpha a then
        match scan_scheme s with
        | Some r => r
        | None => (EmptyString, s)
        end
      else (EmptyString, s)
  | EmptyString => (EmptyString, s)
  end.

(** A URL is absolute when it starts with a scheme. *)
Definition is_absolute (u : string) : bool :=
  negb (String.eqb (fst (split_scheme u)) "").

Definition starts_with_slash (s : string) : bool :=
  match s with
  | String a _ => Ascii.eqb a "/"
  | EmptyString => false
  end.

(** Every character of the string passes the test. *)
Fixpoint forall_chars (f : ascii → bool) (s : string) : bool :=
  match s with
  | EmptyString => true
  | String a s' => f a && forall_chars f s'
  end.

(** None of the characters of [stops] occurs in the string. *)
Definition free_of (stops s : string) : bool :=
  forall_chars
    (fun a => negb (existsb (Ascii.eqb a) (list_ascii_of_string stops))) s.

(** The string up to the first character that passes [stop], and the rest
    from that character on. *)
Fixpoint take_until (stop : ascii → bool) (s : string) : string * string :=
  match s with
  | EmptyString => (EmptyString, EmptyString)
  | String a s' =>
      if stop a then (EmptyString, s)
      else let '(h, t) := take_until stop s' in (String a h, t)
  end.

(** The five components of a URL reference; the scheme is kept with its
    colon and is empty when there is none. *)
Record reference := {
  scheme : string;
  authority : option string;
  path : string;
  query : option string;
  fragment : option string
}.

Definition ends_authority (a : ascii) : bool :=
  Ascii.eqb a "/" || Ascii.eqb a "?" || Ascii.eqb a "#".

Definition ends_path (a : ascii) : bool :=
  Ascii.eqb a "?" || Ascii.eqb a "#".

(** [scheme:][//authority][path][?query][#fragment]. *)
Definition parse (s : string) : reference :=
  let '(sch, r0) := split_scheme s in
  let '(au, r1) :=
    match r0 with
    | String a (String b r) =>
        if Ascii.eqb a "/" && Ascii.eqb b "/" then
          let '(au, r') := take_until ends_authority r in (Some au, r')
        else (None, r0)
    | _ => (None, r0)
    end in
  let '(pa, r2) := take_until ends_path r1 in
  let '(qu, r3) :=
    match r2 with
    | String a r =>
        if Ascii.eqb a "?" then
          let '(q, r') := take_until (Ascii.eqb "#") r in (Some q, r')
        else (None, r2)
    | EmptyString => (None, r2)
    end in
  let fr :=
    match r3 with
    | String a r => if Ascii.eqb a "#" then Some r else None
    | EmptyString => None
    end in
  {| scheme := sch; authority := au; path := pa; query := qu; fragment := fr |}.

Definition unparse (t : reference) : string :=
  scheme t
  ++ match authority t with Some a => "//" ++ a | None => "" end
  ++ path t
  ++ match query t with Some q => "?" ++ q | None => "" end
  ++ match fragment t with Some f => "#" ++ f | None => "" end.

(** The path up to and including its last slash; empty when it has none. *)
Fixpoint dirname (p : string) : string :=
  match p with
  | EmptyString => EmptyString
  | String a p' =>
      if Ascii.eqb a "/" then String a (dirname p')
      else
        match dirname p' with
        | EmptyString => EmptyString
        | d => String a d
        end
  end.

(** Merging a relative path with the path of the root: the last segment
    of the root's path gives way to the relative path. *)
Definition merge (base : reference) (ref : string) : string :=
  match authority base, path base with
  | Some _, EmptyString => "/" ++ ref
  | _, _ => dirname (path base) ++ ref
  end.

Definition is_dot (seg : string) : bool :=
  String.eqb seg "." || String.eqb seg "..".

(** One segment of a path: [..] drops the segment before it (if any), [.]
    is dropped, any other segment is kept. *)
Definition resolve_step (resolved : list string) (seg : string) : list string :=
  if String.eqb seg ".." then removelast resolved
  else if String.eqb seg "." then resolved
  else resolved ++ [seg].

Definition resolve_segments (segments : list string) : list string :=
  let resolved := fold_left resolve_step segments [] in
  if is_dot (List.last segments EmptyString) then resolved ++ [EmptyString]
  else resolved.

Definition normalize (p : string) : string :=
  join "/" (resolve_segments (split "/" p)).

Definition remove_dot_segments (p : string) : string :=
  match p with
  | String a rest => if Ascii.eqb a "/" then "/" ++ normalize rest else normalize p
  | EmptyString => normalize p
  end.

(** The reference [r], which has no scheme, resolved against [base]: a
    reference with an authority keeps only the scheme of the base; one with
    an empty path keeps the path of the base (and its query, unless it
    brings its own); a path with a leading slash takes the place of the
    path of the base; any other path is merged with it. Dot segments are
    then resolved. *)
Definition resolve (base r : reference) : reference :=
  match authority r with
  | Some a =>
      {| scheme := scheme base; authority := Some a;
         path := remove_dot_segments (path r);
         query := query r; fragment := fragment r |}
  | None =>
      if String.eqb (path r) "" then
        {| scheme := scheme base; authority := authority base;
           path := path base;
           query := match query r with Some q => Some q | None => query base end;
           fragment := fragment r |}
      else
        {| scheme := scheme base; authority := authority base;
           path := remove_dot_segments
                     (if starts_with_slash (path r) then path r
                      else merge base (path r));
           query := query r; fragment := fragment r |}
  end.

(** Modelled from the spec: [urllib.parse.urljoin] is a function of the
    Python standard library and its source is not part of this
    repository. The specification (4.2, step 1) says: an absolute [url] is
    used as it is, ignoring the root; otherwise it is resolved relative to
    the root with standard URL-join semantics, where a leading slash
    replaces the root's path and otherwise the segments are merged with
    the root's existing path. The standard resolution of a reference
    (scheme, authority, path, query and fragment) is [resolve]; an empty
    reference denotes the root itself. *)
Definition urljoin (base url : string) : string :=
  if is_absolute url then url
  else if String.eqb url "" then base
  else unparse (resolve (parse base) (parse url)).

(** ** Paths written as lists of segments *)



(** A segment of a plain path: no slash, no question mark, no hash, and
    not one of the dot segments. *)
Definition plain_segment (seg : string) : bool :=
  free_of "/?#" seg && negb (is_dot seg).


End Url.

(* ===================================================================== *)
(** * The client *)
(* ===================================================================== *)

Module StoreClient.
Import Url.

(** [urllib3.util.retry.Retry], with the three arguments the client gives. *)
Record Retry := {
  total : Z;
  backoff_factor : Z;
  status_forcelist : list Z
}.

Record HTTPAdapter := { max_retries : Retry }.

(** A [requests.Session]: the adapters mounted on URL prefixes. *)
Record Session := { adapters : gmap string HTTPAdapter }.

Definition mount (s : Session) (prefix : string) (a : HTTPAdapter) : Session :=
  {| adapters := <[prefix := a]> (adapters s) |}.

(** [requests.Session()], before the client mounts its own adapters, which
    take the place of whatever a new session has on the two prefixes. *)
Definition Session_new : Session := {| adapters := ∅ |}.

(** The smallest reference the heap does not use. *)
Definition fresh_loc (σ : heap) : loc := fresh (dom σ).

Section WithConf.
(** The configuration object: kept, never inspected. *)
Context {Conf : Type}.

Record Client := {
  conf : Conf;
  root_url : string;
  session : Session;
  _snapcraft_headers : loc
}.

(** [Client.__init__(self, conf, root_url)] under the environment
    [environ] (for [os.environ]); [user_agent] is what
    [_agent.get_user_agent()] returns. *)
Definition Client_init (environ : gmap string string) (user_agent : string)
    (conf0 : Conf) (root_url0 : string) (σ : heap) : result Client * heap :=
  let session0 := Session_new in
  match int_env environ "STORE_RETRIES" 5 with
  | Raise e c => (Raise e c, σ)
  | Return total0 =>
      match int_env environ "STORE_BACKOFF" 2 with
      | Raise e c => (Raise e c, σ)
      | Return backoff0 =>
          let retries :=
            {| total := total0;
               backoff_factor := backoff0;
               status_forcelist := [104; 500; 502; 503; 504] |} in
          let session1 := mount session0 "http://" {| max_retries := retries |} in
          let session2 := mount session1 "https://" {| max_retries := retries |} in
          let l := fresh_loc σ in
          (Return {| conf := conf0;
                     root_url := root_url0;
                     session := session2;
                     _snapcraft_headers := l |},
           <[l := {["User-Agent" := user_agent]}]> σ)
      end
  end.

(** [self.session.request(method, url, headers=..., params=..., **kwargs)]:
    the session is handed the method, the final URL, the content of the
    header dictionary, the query parameters and the other keyword
    arguments, and returns a response or raises. *)
Definition transport : Type :=
  Session → string → string → gmap string string → value →
  gmap string value → result Response.

(** [isinstance(e, (ConnectionError, RetryError))], the test made by
    [except (ConnectionError, RetryError)]: an instance of one of the two
    classes, or of a class that inherits from one of them. *)
Definition caught (e : exc) : bool :=
  match e with
  | ConnectionError _ | RetryError _ => true
  | TransportError _ bases _ =>
      bool_decide ("ConnectionError" ∈ bases ∨ "RetryError" ∈ bases)
  | _ => false
  end.

(** The retry policy mounted on a URL prefix of the client's session. *)
Definition mounted_retry (self : Client) (prefix : string) : option Retry :=
  max_retries <$> adapters (session self) !! prefix.

Section WithSession.
Variable session_request : transport.

(** The header step of [request]:
    [if headers: headers.update(self._snapcraft_headers)]
    [else: headers = self._snapcraft_headers].
    It yields the dictionary object that [headers] names afterwards,
    and the heap after the update. A true value that is not a
    dictionary has no [update]. *)
Definition merge_headers (self : Client) (headers : value) (σ : heap)
  : result loc * heap :=
  let mandatory := default ∅ (σ !! _snapcraft_headers self) in
  if truthy σ headers then
    match headers with
    | VDict l =>
        (Return l, <[l := dict_update (default ∅ (σ !! l)) mandatory]> σ)
    | _ => (Raise (AttributeError "object has no attribute 'update'") None, σ)
    end
  else (Return (_snapcraft_headers self), σ).

(** [Client.request(self, method, url, params=None, headers=None, **kwargs)].
    The [logger.debug] call only formats a message and is left out. *)
Definition request (self : Client) (method url : string)
    (params headers : value) (kwargs : gmap string value) (σ : heap)
  : result Response * heap :=
  match merge_headers self headers σ with
  | (Raise e c, σ1) => (Raise e c, σ1)
  | (Return l, σ1) =>
      let final_url := urljoin (root_url self) url in
      (* try: response = self.session.request(...)
         except (ConnectionError, RetryError) as e:
             raise errors.StoreNetworkError(e) from e *)
      match session_request (session self) method final_url
              (default ∅ (σ1 !! l)) params kwargs with
      | Raise e c =>
          if caught e then (Raise (StoreNetworkError e) (Some e), σ1)
          else (Raise e c, σ1)
      | Return response =>
          (* if response.status_code >= 500:
                 raise errors.StoreServerError(response) *)
          if 500 <=? status_code response
          then (Raise (StoreServerError response) None, σ1)
          else (Return response, σ1)
      end
  end.

(** The call [self.request(method, url, **kwargs)]: the keywords
    [params] and [headers] bind the parameters of those names (absent,
    they are [None]), the other keywords are collected; a keyword that
    names a parameter already given by position is a [TypeError]. *)
Definition request_kw (self : Client) (method url : string)
    (kwargs : gmap string value) (σ : heap) : result Response * heap :=
  if bool_decide (is_Some (kwargs !! "self") ∨ is_Some (kwargs !! "method")
                  ∨ is_Some (kwargs !! "url"))
  then (Raise (TypeError "request() got multiple values for argument") None, σ)
  else request self method url
         (default VNone (kwargs !! "params"))
         (default VNone (kwargs !! "headers"))
         (delete "params" (delete "headers" kwargs)) σ.

(** [Client.get(self, url, **kwargs)]. *)
Definition get (self : Client) (url : string) (kwargs : gmap string value)
    (σ : heap) : result Response * heap :=
  request_kw self "GET" url kwargs σ.

(** [Client.post(self, url, **kwargs)]. *)
Definition post (self : Client) (url : string) (kwargs : gmap string value)
    (σ : heap) : result Response * heap :=
  request_kw self "POST" url kwargs σ.

(** [Client.put(self, url, **kwargs)]. *)
Definition put (self : Client) (url : string) (kwargs : gmap string value)
    (σ : heap) : result Response * heap :=
  request_kw self "PUT" url kwargs σ.

End WithSession.
End WithConf.
Arguments Client : clear implicits.

End StoreClient.

(* ===================================================================== *)
(** * The retrying connection manager *)
(* ===================================================================== *)

Module ConnectionManager.
Import StoreClient.

(** The transient network faults of one attempt. *)
Inductive fault :=
| ConnectionRefused
| DnsFailure
| AttemptTimedOut
| ConnectionReset.

(** What one attempt of the HTTP exchange gives. *)
Inductive attempt :=
| Answered (r : Response)
| Faulted (f : fault).

(** The remote side for one call: the outcome of each attempt, numbered
    from 0. *)
Definition wire : Type :=
  string → string → gmap string string → value → gmap string value →
  nat → attempt.

Definition retryable (p : Retry) (r : Response) : bool :=
  bool_decide (status_code r ∈ status_forcelist p).

(** Attempt number [i], with [retries_left] retries still allowed. The
    second component is the number of retries performed. *)
Fixpoint attempts (p : Retry) (w : nat → attempt) (retries_left i : nat)
  : result Response * nat :=
  match w i with
  | Faulted _ =>
      match retries_left with
      | O => (Raise (RetryError "retries exhausted") None, i)
      | S n => attempts p w n (S i)
      end
  | Answered r =>
      if retryable p r then
        match retries_left with
        | O => (Return r, i)
        | S n => attempts p w n (S i)
        end
      else (Return r, i)
  end.

(** Modelled from the spec: the retry loop runs inside [requests] and
    [urllib3], whose sources are not part of this repository. The
    specification (4.1) says of [execute]: on connection refusal, DNS
    failure, timeout or connection reset it retries up to [max_attempts]
    times, raising a retry-exhausted failure if all attempts fail; it also
    retries responses whose status code is in [retryable_status_codes]
    before returning the final response, which may still carry a
    retryable status code if retries are exhausted. [max_attempts] is
    [total], a negative value allowing no retry. The delays between
    attempts do not change the outcome and are left out. *)
Definition execute (p : Retry) (w : wire) (method url : string)
    (headers : gmap string string) (params : value)
    (extra : gmap string value) : result Response * nat :=
  attempts p (w method url headers params extra) (Z.to_nat (total p)) 0.

(** The session whose requests go through [execute] with policy [p]. *)
Definition managed (p : Retry) (w : wire) : transport :=
  fun _ method url headers params extra =>
    fst (execute p w method url headers params extra).

(** Modelled from the spec: the choice of the adapter is made inside
    [requests]. The specification (2) gives the connection manager one
    pool per scheme, http and https, each with its retry policy: the
    adapter of a URL is the one mounted on the prefix of its scheme. *)
Definition adapter_for (s : Session) (url : string) : option HTTPAdapter :=
  if String.prefix "https://" url then adapters s !! "https://"
  else if String.prefix "http://" url then adapters s !! "http://"
  else None.

(** The session of a client over the remote side [w]: a request goes
    through [execute] with the policy of the adapter mounted for its URL.
    The specification does not say what a URL of another scheme gives;
    [requests] raises [InvalidSchema] for it. *)
Definition session_over (w : wire) : transport :=
  fun s method url headers params extra =>
    match adapter_for s url with
    | Some a => fst (execute (max_retries a) w method url headers params extra)
    | None =>
        Raise (TransportError "InvalidSchema" ["RequestException"; "ValueError"]
                 "No connection adapters were found") None
    end.

End ConnectionManager.

(* ===================================================================== *)
(** * A concrete store client, for the examples *)
(* ===================================================================== *)

Module Scenario.
Import StoreClient ConnectionManager.

Definition agent : gmap string string := {["User-Agent" := "snapcraft/3.0"]}.

(** The caller's header dictionary collides with the client's on
    [User-Agent]. *)
Definition caller_headers : gmap string string :=
  {["Accept" := "application/json"; "User-Agent" := "curl/7.0"]}.

(** Object 1 is the client's header dictionary, object 2 the caller's,
    object 3 an empty dictionary. *)
Definition store : heap := {[1%positive := agent; 2%positive := caller_headers; 3%positive := ∅]}.

Definition retries5 : Retry :=
  {| total := 5; backoff_factor := 2; status_forcelist := [104; 500; 502; 503; 504] |}.

Definition dashboard : Client unit :=
  {| conf := tt;
     root_url := "https://dashboard.snapcraft.io/dev/api/";
     session := mount (mount Session_new "http://" {| max_retries := retries5 |})
                      "https://" {| max_retries := retries5 |};
     _snapcraft_headers := 1%positive |}.

Definition response (code : Z) : Response :=
  {| status_code := code; headers := []; content := "" |}.

(** A session that answers every request with the given status. *)
Definition answering (code : Z) : transport :=
  fun _ _ _ _ _ _ => Return (response code).

(** A session that raises the given exception on every request. *)
Definition raising (e : exc) : transport :=
  fun _ _ _ _ _ _ => Raise e None.

(** A session that answers with the [User-Agent] header it was given as
    content, and with the method and URL as headers. *)
Definition echo : transport :=
  fun _ method url hs _ _ =>
    Return {| status_code := 200;
              headers := [("method", method); ("url", url)];
              content := default "" (hs !! "User-Agent") |}.

(** The remote side that answers every attempt with the given status. *)
Definition always (code : Z) : wire :=
  fun _ _ _ _ _ _ => Answered (response code).

(** The remote side that resets the connection on every attempt. *)
Definition always_reset : wire :=
  fun _ _ _ _ _ _ => Faulted ConnectionReset.

(** The remote side that resets the connection on the first [k] attempts
    and answers with the given status from then on. *)
Definition reset_then (k : nat) (code : Z) : wire :=
  fun _ _ _ _ _ i =>
    if (i <? k)%nat then Faulted ConnectionReset else Answered (response code).

(** The remote side that answers 503 on the first [k] attempts, then 200. *)
Definition flaky (k : nat) : wire :=
  fun _ _ _ _ _ i => Answered (response (if (i <? k)%nat then 503 else 200)).

(** The client that the construction gives on [store] with an empty
    environment, and the heap it leaves: object 4 is its header dictionary. *)
Definition built : Client unit :=
  {| conf := tt;
     root_url := "https://dashboard.snapcraft.io/dev/api/";
     session := mount (mount Session_new "http://" {| max_retries := retries5 |})
                      "https://" {| max_retries := retries5 |};
     _snapcraft_headers := 4%positive |}.

Definition built_store : heap := <[4%positive := agent]> store.

(** A second client, constructed on [built_store] under another agent
    string: object 5 is its header dictionary. *)
Definition built_next : Client unit :=
  {| conf := tt;
     root_url := "https://api.snapcraft.io/";
     session := mount (mount Session_new "http://" {| max_retries := retries5 |})
                      "https://" {| max_retries := retries5 |};
     _snapcraft_headers := 5%positive |}.

End Scenario.

(* ===================================================================== *)
(** * Properties of the request pipeline *)
(* ===================================================================== *)

Import Url StoreClient ConnectionManager.

Section RequestFacts.
Context {Conf : Type}.
Variable session_request : transport.
Implicit Types (self : Client Conf) (σ : heap) (l : loc).

Lemma request_dispatch self method url params headers kwargs σ l σ1 :
  merge_headers self headers σ = (Return l, σ1) →
  request session_request self method url params headers kwargs σ =
    match session_request (session self) method (urljoin (root_url self) url)
            (default ∅ (σ1 !! l)) params kwargs with
    | Raise e c =>
        if caught e then (Raise (StoreNetworkError e) (Some e), σ1)
        else (Raise e c, σ1)
    | Return response =>
        if 500 <=? status_code response
        then (Raise (StoreServerError response) None, σ1)
        else (Return response, σ1)
    end.
Proof. intros Hm. unfold request. now rewrite Hm. Qed.

(** The heap after [request] is the heap after its header step, whatever
    the outcome of the call. *)
Lemma request_heap self method url params headers kwargs σ :
  snd (request session_request self method url params headers kwargs σ) =
  snd (merge_headers self headers σ).
Proof.
  unfold request.
  destruct (merge_headers self headers σ) as [[l|e c] σ1]; [|reflexivity].
  simpl. destruct (session_request _ _ _ _ _ _) as [r|e c].
  - now destruct (500 <=? status_code r).
  - now destruct (caught e).
Qed.

Lemma merge_headers_None self σ :
  merge_headers self VNone σ = (Return (_snapcraft_headers self), σ).
Proof. reflexivity. Qed.

Lemma merge_headers_empty self σ l :
  σ !! l = Some ∅ →
  merge_headers self (VDict l) σ = (Return (_snapcraft_headers self), σ).
Proof.
  intros Hl. unfold merge_headers, truthy. rewrite Hl.
  now rewrite bool_decide_eq_true_2.
Qed.

Lemma merge_headers_mapping self σ l (H M : gmap string string) :
  σ !! _snapcraft_headers self = Some M →
  σ !! l = Some H →
  H ≠ ∅ →
  merge_headers self (VDict l) σ = (Return l, <[l := M ∪ H]> σ).
Proof.
  intros HM Hl Hne. unfold merge_headers, truthy, dict_update.
  rewrite Hl, HM. now rewrite bool_decide_eq_false_2.
Qed.

(** A header argument that is [None] or a dictionary never makes the
    header step fail. *)
Lemma merge_headers_total self σ headers :
  headers = VNone ∨ (∃ l, headers = VDict l) →
  ∃ l σ1, merge_headers self headers σ = (Return l, σ1).
Proof.
  intros [->|[l ->]]; [eauto using merge_headers_None|].
  unfold merge_headers. destruct (truthy σ (VDict l)); eauto.
Qed.

End RequestFacts.

(* ===================================================================== *)
(** * The retry loop *)
(* ===================================================================== *)

Section RetryLoop.
Variable p : Retry.
Variable w : nat → attempt.

(** When every attempt faults, the loop uses up all its retries and raises
    the retry-exhausted failure. *)
Lemma attempts_all_faulted (n i : nat) :
  (∀ j, ∃ f, w j = Faulted f) →
  attempts p w n i = (Raise (RetryError "retries exhausted") None, (i + n)%nat).
Proof.
  intros Hw. revert i. induction n as [|n IH]; intros i; simpl.
  - destruct (Hw i) as [f ->]. f_equal. lia.
  - destruct (Hw i) as [f ->]. rewrite IH. f_equal. lia.
Qed.

(** When every attempt is answered with status [code], the loop returns the
    answer of the last attempt it makes: the first one when [code] is not
    retryable, the one after the last retry when it is. *)
Lemma attempts_all_answered (code : Z) (n i : nat) :
  (∀ j, ∃ r, w j = Answered r ∧ status_code r = code) →
  ∃ r k, attempts p w n i = (Return r, k)
         ∧ w k = Answered r
         ∧ status_code r = code
         ∧ k = (if bool_decide (code ∈ status_forcelist p) then i + n else i)%nat.
Proof.
  intros Hw. revert i. induction n as [|n IH]; intros i; simpl.
  - destruct (Hw i) as (r & Hr & Hc). rewrite Hr. unfold retryable. rewrite Hc.
    exists r, i. case_bool_decide; repeat split; auto; lia.
  - destruct (Hw i) as (r & Hr & Hc). rewrite Hr. unfold retryable. rewrite Hc.
    case_bool_decide as Hin.
    + destruct (IH (S i)) as (r' & k & He & Hk & Hc' & ->).
      exists r', (S i + n)%nat. rewrite He.
      repeat split; auto.
    + exists r, i. repeat split; auto.
Qed.

(** A response that is not retryable ends the loop at once. *)
Lemma attempts_not_retryable (n i : nat) (r : Response) :
  w i = Answered r → retryable p r = false → attempts p w n i = (Return r, i).
Proof. intros Hr Hn. destruct n; simpl; now rewrite Hr, Hn. Qed.

(** Retryable answers on the first [k] attempts, within the allowed
    retries, are not seen by the caller. *)
Lemma attempts_transparent (k n i : nat) (r : Response) :
  (k ≤ n)%nat →
  (∀ j, (i ≤ j < i + k)%nat → ∃ r', w j = Answered r' ∧ retryable p r' = true) →
  w (i + k)%nat = Answered r →
  retryable p r = false →
  attempts p w n i = (Return r, (i + k)%nat).
Proof.
  revert n i. induction k as [|k IH]; intros n i Hk Hre Hr Hn.
  - rewrite Nat.add_0_r in *. now apply attempts_not_retryable.
  - destruct n as [|n]; [lia|]. simpl.
    destruct (Hre i) as (r' & -> & ->); [lia|].
    replace (i + S k)%nat with (S i + k)%nat in * by lia.
    apply IH; auto; [lia|]. intros j Hj. apply Hre. lia.
Qed.

(** Faults on [k] attempts in a row, within the allowed retries, are
    retried: the loop goes on at attempt [i + k] with [k] retries less. *)
Lemma attempts_after_faults (k n i : nat) :
  (k ≤ n)%nat →
  (∀ j, (i ≤ j < i + k)%nat → ∃ f, w j = Faulted f) →
  attempts p w n i = attempts p w (n - k) (i + k).
Proof.
  revert n i. induction k as [|k IH]; intros n i Hk Hw.
  - now rewrite Nat.sub_0_r, Nat.add_0_r.
  - destruct n as [|n]; [lia|]. simpl attempts at 1.
    destruct (Hw i) as [f ->]; [lia|].
    rewrite (IH n (S i)); [|lia|intros j Hj; apply Hw; lia].
    f_equal; lia.
Qed.

(** Faults on all the attempts the policy allows end in the
    retry-exhausted failure after [n] retries; what later attempts would
    give plays no part. *)
Lemma attempts_exhausted (n : nat) :
  (∀ j, (j ≤ n)%nat → ∃ f, w j = Faulted f) →
  attempts p w n 0 = (Raise (RetryError "retries exhausted") None, n).
Proof.
  intros Hw.
  rewrite (attempts_after_faults n n 0); [|lia|intros j Hj; apply Hw; lia].
  rewrite Nat.sub_diag. simpl. now destruct (Hw n) as [f ->].
Qed.

(** An answer that is not retryable, after [k] faults within the allowed
    retries, is what the loop returns, after [k] retries. *)
Lemma attempts_answer_after_faults (k n : nat) (r : Response) :
  (k ≤ n)%nat →
  (∀ j, (j < k)%nat → ∃ f, w j = Faulted f) →
  w k = Answered r →
  retryable p r = false →
  attempts p w n 0 = (Return r, k).
Proof.
  intros Hk Hw Hr Hn.
  rewrite (attempts_after_faults k n 0); [|lia|intros j Hj; apply Hw; lia].
  now apply attempts_not_retryable.
Qed.

End RetryLoop.

(* ===================================================================== *)
(** * Classification of the outcome *)
(* ===================================================================== *)

Section Classification.
Context {Conf : Type}.
Implicit Types (self : Client Conf) (σ : heap) (l : loc).

(** C1. Every response the session hands to [request] with a status code
    of 500 or more makes [request] raise [StoreServerError] carrying that
    very response, instead of returning it. In particular, when every
    attempt is answered with status 500, the connection manager gives the
    answer of the last attempt it makes (after all the retries when 500
    is retryable), and [request] raises [StoreServerError] carrying it. *)
Theorem request_raises_StoreServerError
    self method url params headers kwargs σ l σ1 :
  merge_headers self headers σ = (Return l, σ1) →
  let final_url := urljoin (root_url self) url in
  let sent := default ∅ (σ1 !! l) in
  (∀ (session_request : transport) (r : Response),
      session_request (session self) method final_url sent params kwargs = Return r →
      500 ≤ status_code r →
      request session_request self method url params headers kwargs σ
      = (Raise (StoreServerError r) None, σ1))
  ∧
  (∀ (p : Retry) (w : wire),
      (∀ i, ∃ r, w method final_url sent params kwargs i = Answered r
                 ∧ status_code r = 500) →
      ∃ (r : Response) (n : nat),
        execute p w method final_url sent params kwargs = (Return r, n)
        ∧ w method final_url sent params kwargs n = Answered r
        ∧ status_code r = 500
        ∧ (500 ∈ status_forcelist p → n = Z.to_nat (total p))
        ∧ request (managed p w) self method url params headers kwargs σ
          = (Raise (StoreServerError r) None, σ1)).
Proof.
  intros Hm final_url sent. split.
  - intros session_request r Hr Hs.
    rewrite (request_dispatch _ _ _ _ _ _ _ _ _ _ Hm).
    fold final_url sent. rewrite Hr.
    now rewrite (proj2 (Z.leb_le _ _) Hs).
  - intros p w Hw.
    destruct (attempts_all_answered p _ 500 (Z.to_nat (total p)) 0 Hw)
      as (r & n & He & Hn & Hc & Hk).
    exists r, n. unfold execute. rewrite He. repeat split; auto.
    + intros Hin. rewrite Hk. now rewrite bool_decide_eq_true_2.
    + rewrite (request_dispatch _ _ _ _ _ _ _ _ _ _ Hm).
      fold final_url sent. unfold managed, execute. rewrite He. simpl.
      now rewrite Hc.
Qed.

(** C2. A [ConnectionError] or [RetryError] raised by the session during
    dispatch is caught, and [request] raises [StoreNetworkError] built
    from it, with it as cause: the outcome is neither the raw exception
    nor a returned response. *)
Theorem request_raises_StoreNetworkError
    (session_request : transport) self method url params headers kwargs σ l σ1
    (e : exc) (c : option exc) :
  merge_headers self headers σ = (Return l, σ1) →
  session_request (session self) method (urljoin (root_url self) url)
    (default ∅ (σ1 !! l)) params kwargs = Raise e c →
  (∃ msg, e = ConnectionError msg ∨ e = RetryError msg) →
  let outcome := request session_request self method url params headers kwargs σ in
  outcome = (Raise (StoreNetworkError e) (Some e), σ1)
  ∧ (∀ c', fst outcome ≠ Raise e c')
  ∧ (∀ r, fst outcome ≠ Return r).
Proof.
  intros Hm He Hcls outcome.
  assert (Ho : outcome = (Raise (StoreNetworkError e) (Some e), σ1)).
  { unfold outcome. rewrite (request_dispatch _ _ _ _ _ _ _ _ _ _ Hm), He.
    destruct Hcls as [msg [-> | ->]]; reflexivity. }
  rewrite Ho. simpl. repeat split; [|discriminate].
  intros c' Heq. destruct Hcls as [msg [-> | ->]]; discriminate.
Qed.

(** C4. A final response with a status code below 500 is returned by
    [request] as it is, and no error is raised; so a 404 response comes
    back with its status code 404. *)
Theorem request_returns_response
    (session_request : transport) self method url params headers kwargs σ l σ1
    (r : Response) :
  merge_headers self headers σ = (Return l, σ1) →
  session_request (session self) method (urljoin (root_url self) url)
    (default ∅ (σ1 !! l)) params kwargs = Return r →
  status_code r < 500 →
  request session_request self method url params headers kwargs σ = (Return r, σ1)
  ∧ (status_code r = 404 →
     ∃ r', fst (request session_request self method url params headers kwargs σ)
           = Return r' ∧ status_code r' = 404).
Proof.
  intros Hm Hr Hs.
  assert (Ho : request session_request self method url params headers kwargs σ
               = (Return r, σ1)).
  { rewrite (request_dispatch _ _ _ _ _ _ _ _ _ _ Hm), Hr.
    now rewrite (proj2 (Z.leb_gt _ _) Hs). }
  split; [exact Ho|]. intros H404. exists r. now rewrite Ho.
Qed.

(** C8. Let [p] be the retry policy of the adapter mounted for the final
    URL and N its [total] ([max_attempts]; none when it is negative). When
    the attempts numbered 0 to N fail with a connection reset, whatever
    later attempts would give, the connection manager performs exactly N
    retries and raises the retry-exhausted failure, which [request] raises
    as [StoreNetworkError] with that failure as cause. It does not give up
    before: when only the attempts before the [k]-th retry are reset, for
    any [k] up to N, and that retry is answered with a status that is not
    retryable, the manager returns this answer after [k] retries and
    [request] classifies it. *)
Theorem request_reset_exhausts_retries
    (w : wire) self method url params headers kwargs σ l σ1 (p : Retry) :
  merge_headers self headers σ = (Return l, σ1) →
  let final_url := urljoin (root_url self) url in
  let sent := default ∅ (σ1 !! l) in
  let attempt_at := w method final_url sent params kwargs in
  let N := Z.to_nat (total p) in
  adapter_for (session self) final_url = Some {| max_retries := p |} →
  Z.of_nat N = Z.max 0 (total p)
  ∧ ((∀ i, (i ≤ N)%nat → attempt_at i = Faulted ConnectionReset) →
       execute p w method final_url sent params kwargs
       = (Raise (RetryError "retries exhausted") None, N)
       ∧ request (session_over w) self method url params headers kwargs σ
         = (Raise (StoreNetworkError (RetryError "retries exhausted"))
                  (Some (RetryError "retries exhausted")), σ1))
  ∧ (∀ (k : nat) (r : Response),
       (k ≤ N)%nat →
       (∀ i, (i < k)%nat → attempt_at i = Faulted ConnectionReset) →
       attempt_at k = Answered r →
       status_code r ∉ status_forcelist p →
       execute p w method final_url sent params kwargs = (Return r, k)
       ∧ request (session_over w) self method url params headers kwargs σ
         = if 500 <=? status_code r
           then (Raise (StoreServerError r) None, σ1)
           else (Return r, σ1)).
Proof.
  intros Hm final_url sent attempt_at N Had.
  assert (Hreq : request (session_over w) self method url params headers kwargs σ
                 = match fst (execute p w method final_url sent params kwargs) with
                   | Raise e c =>
                       if caught e then (Raise (StoreNetworkError e) (Some e), σ1)
                       else (Raise e c, σ1)
                   | Return response =>
                       if 500 <=? status_code response
                       then (Raise (StoreServerError response) None, σ1)
                       else (Return response, σ1)
                   end).
  { rewrite (request_dispatch _ _ _ _ _ _ _ _ _ _ Hm). fold final_url sent.
    unfold session_over. now rewrite Had. }
  split; [unfold N; lia|]. split.
  - intros Hw.
    assert (He : execute p w method final_url sent params kwargs
                 = (Raise (RetryError "retries exhausted") None, N)).
    { unfold execute. apply attempts_exhausted. intros j Hj. eexists.
      now apply Hw. }
    split; [exact He|]. now rewrite Hreq, He.
  - intros k r Hk Hw Hr Hnot.
    assert (He : execute p w method final_url sent params kwargs = (Return r, k)).
    { unfold execute. apply attempts_answer_after_faults; auto.
      - intros j Hj. eexists. now apply Hw.
      - unfold retryable. now apply bool_decide_eq_false_2. }
    split; [exact He|]. now rewrite Hreq, He.
Qed.

End Classification.

(* ===================================================================== *)
(** * The header merge and its effect on the caller *)
(* ===================================================================== *)

Section Headers.
Context {Conf : Type}.
Implicit Types (self : Client Conf) (σ : heap) (l : loc).
Implicit Types (H M : gmap string string).

(** What [update] leaves in the caller's dictionary. *)
Lemma dict_update_lookup H M (k : string) :
  dict_update H M !! k = match M !! k with Some v => Some v | None => H !! k end.
Proof.
  unfold dict_update. destruct (M !! k) as [v|] eqn:Hk.
  - now apply lookup_union_Some_l.
  - now apply lookup_union_r.
Qed.

(** The session sees nothing of the header argument but the merged
    dictionary. *)
Lemma request_sends_merged (session_request : transport)
    self method url params headers kwargs σ l σ1 :
  merge_headers self headers σ = (Return l, σ1) →
  request session_request self method url params headers kwargs σ =
  request (fun s m u _ ps kw => session_request s m u (default ∅ (σ1 !! l)) ps kw)
    self method url params headers kwargs σ.
Proof.
  intros Hm. now rewrite !(request_dispatch _ _ _ _ _ _ _ _ _ _ Hm).
Qed.

(** C3. For a caller's header mapping [H] (any mapping, also the empty
    one), the header step yields a dictionary [merged], the one the
    session is given, in which every key outside the mandatory headers
    has the value [H] gives it and every mandatory key has the mandatory
    value, whatever [H] says of it. Without caller headers, the mandatory
    headers are used alone. *)
Theorem merged_headers_mandatory_win self σ l H M :
  σ !! _snapcraft_headers self = Some M →
  σ !! l = Some H →
  (∃ l' σ1 merged,
      merge_headers self (VDict l) σ = (Return l', σ1)
      ∧ σ1 !! l' = Some merged
      ∧ (∀ k, M !! k = None → merged !! k = H !! k)
      ∧ (∀ k v, M !! k = Some v → merged !! k = Some v)
      ∧ (∀ (session_request : transport) method url params kwargs,
            request session_request self method url params (VDict l) kwargs σ =
            request (fun s m u _ ps kw => session_request s m u merged ps kw)
              self method url params (VDict l) kwargs σ))
  ∧
  (merge_headers self VNone σ = (Return (_snapcraft_headers self), σ)
   ∧ ∀ (session_request : transport) method url params kwargs,
       request session_request self method url params VNone kwargs σ =
       request (fun s m u _ ps kw => session_request s m u M ps kw)
         self method url params VNone kwargs σ).
Proof.
  intros HM Hl. split.
  - destruct (decide (H = ∅)) as [->|Hne].
    + exists (_snapcraft_headers self), σ, M.
      pose proof (merge_headers_empty self σ l Hl) as Hm.
      split; [exact Hm|]. split; [exact HM|]. split; [|split].
      * intros k Hk. now rewrite Hk, lookup_empty.
      * auto.
      * intros. rewrite (request_sends_merged _ _ _ _ _ _ _ _ _ _ Hm).
        now rewrite HM.
    + exists l, (<[l := M ∪ H]> σ), (M ∪ H).
      pose proof (merge_headers_mapping self σ l H M HM Hl Hne) as Hm.
      split; [exact Hm|]. split; [|split; [|split]].
      * apply lookup_insert_eq.
      * intros k Hk. now apply lookup_union_r.
      * intros k v Hk. now apply lookup_union_Some_l.
      * intros. rewrite (request_sends_merged _ _ _ _ _ _ _ _ _ _ Hm).
        now rewrite lookup_insert_eq.
  - split; [reflexivity|]. intros.
    rewrite (request_sends_merged _ _ _ _ _ _ _ _ _ _ (merge_headers_None self σ)).
    now rewrite HM.
Qed.

(** C10. A call of [request] with a non-empty caller's mapping updates
    that very dictionary object in place: after the call, whatever its
    outcome, the object holds every mandatory entry (a colliding key has
    the mandatory value), keeps its other entries, and no other object
    has changed. An empty caller's mapping is handled like no headers at
    all: the heap is left as it was. *)
Theorem request_updates_caller_headers (session_request : transport)
    self method url params kwargs σ l H M :
  σ !! _snapcraft_headers self = Some M →
  σ !! l = Some H →
  let σ' := snd (request session_request self method url params (VDict l) kwargs σ) in
  (H ≠ ∅ →
     ∃ H', σ' !! l = Some H'
           ∧ (∀ k v, M !! k = Some v → H' !! k = Some v)
           ∧ (∀ k, M !! k = None → H' !! k = H !! k)
           ∧ (∀ l', l' ≠ l → σ' !! l' = σ !! l'))
  ∧ (H = ∅ → σ' = σ)
  ∧ snd (request session_request self method url params VNone kwargs σ) = σ.
Proof.
  intros HM Hl σ'. unfold σ'. rewrite !request_heap. repeat split.
  - intros Hne. rewrite (merge_headers_mapping self σ l H M HM Hl Hne). simpl.
    exists (M ∪ H). repeat split.
    + apply lookup_insert_eq.
    + intros k v Hk. now apply lookup_union_Some_l.
    + intros k Hk. now apply lookup_union_r.
    + intros l' Hne'. now apply lookup_insert_ne.
  - intros ->. now rewrite (merge_headers_empty self σ l Hl).
Qed.

End Headers.

(* ===================================================================== *)
(** * The verb wrappers *)
(* ===================================================================== *)

Section Verbs.
Context {Conf : Type}.
Variable session_request : transport.
Implicit Types (self : Client Conf) (σ : heap).

(** The keyword call of [request] with keywords that name no positional
    parameter is the plain call, [params] and [headers] taken from the
    keywords. *)
Lemma request_kw_plain self method url (kwargs : gmap string value) σ :
  kwargs !! "self" = None → kwargs !! "method" = None → kwargs !! "url" = None →
  request_kw session_request self method url kwargs σ =
  request session_request self method url
    (default VNone (kwargs !! "params")) (default VNone (kwargs !! "headers"))
    (delete "params" (delete "headers" kwargs)) σ.
Proof.
  intros Hs Hm Hu. unfold request_kw. rewrite bool_decide_eq_false_2; [reflexivity|].
  rewrite Hs, Hm, Hu. intros [[? ?]|[[? ?]|[? ?]]]; discriminate.
Qed.

(** C9. [get], [post] and [put] are [request] with the method fixed to
    GET, POST and PUT: the URL is passed on as it is, the keywords [params]
    and [headers] become the arguments of those names ([None] when absent)
    and every other keyword is passed on unchanged. A keyword that names a
    parameter [request] already gets by position is refused by the call,
    before anything is done, for the three wrappers alike. *)
Theorem verbs_forward_to_request self url (kwargs : gmap string value) σ :
  let params := default VNone (kwargs !! "params") in
  let headers := default VNone (kwargs !! "headers") in
  let extra := delete "params" (delete "headers" kwargs) in
  (kwargs !! "self" = None → kwargs !! "method" = None → kwargs !! "url" = None →
     get session_request self url kwargs σ
     = request session_request self "GET" url params headers extra σ
     ∧ post session_request self url kwargs σ
       = request session_request self "POST" url params headers extra σ
     ∧ put session_request self url kwargs σ
       = request session_request self "PUT" url params headers extra σ)
  ∧ (is_Some (kwargs !! "self") ∨ is_Some (kwargs !! "method")
     ∨ is_Some (kwargs !! "url") →
     get session_request self url kwargs σ
     = (Raise (TypeError "request() got multiple values for argument") None, σ)
     ∧ post session_request self url kwargs σ
       = get session_request self url kwargs σ
     ∧ put session_request self url kwargs σ
       = get session_request self url kwargs σ).
Proof.
  intros params headers extra. split.
  - intros Hs Hm Hu. unfold get, post, put.
    now rewrite !request_kw_plain by assumption.
  - intros Hclash. unfold get, post, put, request_kw.
    now rewrite !bool_decide_eq_true_2 by exact Hclash.
Qed.

End Verbs.

(* ===================================================================== *)
(** * Construction: the retry policy *)
(* ===================================================================== *)

Section Construction.
Context {Conf : Type}.
Implicit Types (environ : gmap string string) (σ : heap).

Lemma int_env_unset environ name d :
  environ !! name = None → int_env environ name d = Return d.
Proof. intros H. unfold int_env. now rewrite H. Qed.

Lemma int_env_set environ name d s n :
  environ !! name = Some s → int_of_str s = Some n →
  int_env environ name d = Return n.
Proof. intros H Hs. unfold int_env. now rewrite H, Hs. Qed.

Lemma int_env_inv environ name d n :
  int_env environ name d = Return n →
  (environ !! name = None ∧ n = d)
  ∨ (∃ s, environ !! name = Some s ∧ int_of_str s = Some n).
Proof.
  unfold int_env. destruct (environ !! name) as [s|]; [|intros [= <-]; auto].
  destruct (int_of_str s) as [m|] eqn:Hs; [|discriminate].
  intros [= <-]. right. eauto.
Qed.

(** The adapters of a constructed client: one policy, on both prefixes. *)
Lemma Client_init_mounts environ user_agent (conf0 : Conf) root σ t b :
  int_env environ "STORE_RETRIES" 5 = Return t →
  int_env environ "STORE_BACKOFF" 2 = Return b →
  ∃ c, Client_init environ user_agent conf0 root σ
       = (Return c, <[fresh_loc σ := {["User-Agent" := user_agent]}]> σ)
       ∧ conf c = conf0 ∧ root_url c = root
       ∧ _snapcraft_headers c = fresh_loc σ
       ∧ adapters (session c)
         = <["https://" := {| max_retries :=
               {| total := t; backoff_factor := b;
                  status_forcelist := [104; 500; 502; 503; 504] |} |}]>
           (<["http://" := {| max_retries :=
               {| total := t; backoff_factor := b;
                  status_forcelist := [104; 500; 502; 503; 504] |} |}]> ∅).
Proof.
  intros Ht Hb. unfold Client_init. rewrite Ht, Hb.
  eexists. repeat split.
Qed.

(** Every policy a constructed client has mounted carries the fixed list
    of retryable status codes. *)
Lemma Client_init_status_forcelist environ user_agent (conf0 : Conf) root σ
    (c : Client Conf) σ' prefix (r : Retry) :
  Client_init environ user_agent conf0 root σ = (Return c, σ') →
  mounted_retry c prefix = Some r →
  status_forcelist r = [104; 500; 502; 503; 504].
Proof.
  unfold Client_init.
  destruct (int_env environ "STORE_RETRIES" 5) as [t|]; [|discriminate].
  destruct (int_env environ "STORE_BACKOFF" 2) as [b|]; [|discriminate].
  intros [= <- <-]. unfold mounted_retry, mount. simpl.
  destruct (decide (prefix = "https://")) as [->|Hn1].
  { rewrite lookup_insert_eq. now intros [= <-]. }
  rewrite lookup_insert_ne by done.
  destruct (decide (prefix = "http://")) as [->|Hn2].
  { rewrite lookup_insert_eq. now intros [= <-]. }
  rewrite lookup_insert_ne by done. now rewrite lookup_empty.
Qed.

(** C7, as the code has it. The retry policy of a new client is read from
    two tunables, the environment variables STORE_RETRIES (maximum number
    of retries, 5 when unset) and STORE_BACKOFF (backoff factor, 2 when
    unset), each read on its own; the list of retryable status codes is
    104, 500, 502, 503, 504 whatever the environment holds. The same
    policy is mounted for http and for https. *)
Theorem retry_policy_from_environment environ user_agent (conf0 : Conf) root σ t b :
  int_env environ "STORE_RETRIES" 5 = Return t →
  int_env environ "STORE_BACKOFF" 2 = Return b →
  ∃ (c : Client Conf) σ',
    Client_init environ user_agent conf0 root σ = (Return c, σ')
    ∧ mounted_retry c "http://"
      = Some {| total := t; backoff_factor := b;
                status_forcelist := [104; 500; 502; 503; 504] |}
    ∧ mounted_retry c "https://" = mounted_retry c "http://"
    ∧ (environ !! "STORE_RETRIES" = None → t = 5)
    ∧ (environ !! "STORE_BACKOFF" = None → b = 2)
    ∧ (∀ s, environ !! "STORE_RETRIES" = Some s → int_of_str s = Some t)
    ∧ (∀ s, environ !! "STORE_BACKOFF" = Some s → int_of_str s = Some b).
Proof.
  intros Ht Hb.
  destruct (Client_init_mounts environ user_agent conf0 root σ t b Ht Hb)
    as (c & Hc & _ & _ & _ & Ha).
  exists c, (<[fresh_loc σ := {["User-Agent" := user_agent]}]> σ).
  split; [exact Hc|]. unfold mounted_retry. rewrite Ha.
  rewrite lookup_insert_eq, lookup_insert_ne by done. rewrite lookup_insert_eq.
  split; [reflexivity|]. split; [reflexivity|].
  destruct (int_env_inv _ _ _ _ Ht) as [[Hu ->]|(s & Hs & Hp)];
    destruct (int_env_inv _ _ _ _ Hb) as [[Hu' ->]|(s' & Hs' & Hp')];
    repeat split; auto; intros; congruence.
Qed.

End Construction.

(** C7 as stated does not hold: no environment makes a constructed client
    carry a list of retryable status codes other than the fixed one, so the
    third tunable cannot be overridden through the environment. In
    particular an environment that sets STORE_STATUS_FORCELIST leaves the
    list as it is. *)
Lemma status_forcelist_not_overridable :
  (¬ ∃ (environ : gmap string string) (user_agent root : string) (σ : heap)
       (c : Client unit) (σ' : heap) (prefix : string) (r : Retry),
       Client_init environ user_agent tt root σ = (Return c, σ')
       ∧ mounted_retry c prefix = Some r
       ∧ status_forcelist r ≠ [104; 500; 502; 503; 504])
  ∧ (status_forcelist <$>
       match fst (Client_init {["STORE_STATUS_FORCELIST" := "418"]}
                    "snapcraft/3.0" tt "https://dashboard.snapcraft.io/" ∅) with
       | Return c => mounted_retry c "https://"
       | Raise _ _ => None
       end) = Some [104; 500; 502; 503; 504].
Proof.
  split.
  - intros (environ & ua & root & σ & c & σ' & prefix & r & Hc & Hm & Hne).
    apply Hne. eapply Client_init_status_forcelist; eauto.
  - vm_compute. reflexivity.
Qed.

(* ===================================================================== *)
(** * URL resolution: strings and segments *)
(* ===================================================================== *)

Section UrlFacts.





Lemma split_not_nil (c : ascii) (s : string) : split c s ≠ [].
Proof.
  destruct s as [|a s]; simpl; [discriminate|].
  destruct (Ascii.eqb a c); [discriminate|].
  destruct (split c s); discriminate.
Qed.

Lemma join_cons_char (sep : string) (a : ascii) (h : string) (t : list string) :
  join sep (String a h :: t) = String a (join sep (h :: t)).
Proof. destruct t; reflexivity. Qed.

(** Joining the pieces of a split gives the string back. *)
Lemma join_split (s : string) : join "/" (split "/" s) = s.
Proof.
  induction s as [|a s IH]; [reflexivity|]. simpl.
  destruct (Ascii.eqb_spec a "/") as [->|Hne].
  - destruct (split "/" s) as [|h t] eqn:Hs; [now apply split_not_nil in Hs|].
    simpl in *. now rewrite IH.
  - destruct (split "/" s) as [|h t] eqn:Hs; [now apply split_not_nil in Hs|].
    rewrite join_cons_char. now rewrite IH.
Qed.


(** ** Characters *)






Lemma plain_segment_free (seg : string) :
  plain_segment seg = true → free_of "/?#" seg = true ∧ is_dot seg = false.
Proof.
  unfold plain_segment. intros [H1 H2]%andb_prop.
  split; [exact H1|now apply negb_true_iff].
Qed.


(** ** Segments *)







(** ** Dot segments *)







(** ** Directory of a path *)








End UrlFacts.

(* ===================================================================== *)
(** * URL resolution: parsing *)
(* ===================================================================== *)

Section ParseFacts.
















End ParseFacts.

(* ===================================================================== *)
(** * URL resolution in [request] *)
(* ===================================================================== *)

Section Resolution.
Context {Conf : Type}.

(** C5. An absolute URL resolves to itself against every root, and
    [request] on an absolute URL does the same whatever the root URL of
    the client is. *)
Theorem absolute_url_ignores_root (session_request : transport)
    (self : Client Conf) (root u method : string) (params headers : value)
    (kwargs : gmap string value) (σ : heap) :
  is_absolute u = true →
  urljoin root u = u
  ∧ request session_request
      {| conf := conf self; root_url := root; session := session self;
         _snapcraft_headers := _snapcraft_headers self |}
      method u params headers kwargs σ
    = request session_request self method u params headers kwargs σ.
Proof.
  intros Habs.
  assert (Hu : ∀ r, urljoin r u = u) by (intros r; unfold urljoin; now rewrite Habs).
  split; [apply Hu|]. unfold request, merge_headers. simpl. now rewrite !Hu.
Qed.



End Resolution.


(* ===================================================================== *)
(** * The properties on the concrete client *)
(* ===================================================================== *)

Import Scenario.

(** ** Runs of the model *)

Example urljoin_appends :
  urljoin "https://dashboard.snapcraft.io/dev/api/" "snap-push/"
  = "https://dashboard.snapcraft.io/dev/api/snap-push/".
Proof. reflexivity. Qed.

Example urljoin_drops_last_segment :
  urljoin "https://dashboard.snapcraft.io/dev/api" "acl/"
  = "https://dashboard.snapcraft.io/dev/acl/".
Proof. reflexivity. Qed.

Example urljoin_leading_slash :
  urljoin "https://dashboard.snapcraft.io/dev/api/" "/v2/snaps"
  = "https://dashboard.snapcraft.io/v2/snaps".
Proof. reflexivity. Qed.

Example urljoin_dot_segments :
  urljoin "https://dashboard.snapcraft.io/dev/api/" "../x/./y"
  = "https://dashboard.snapcraft.io/dev/x/y".
Proof. reflexivity. Qed.

(** The reference resolution examples of the URI standard (RFC 3986,
    section 5.4), against the base [http://a/b/c/d;p?q]. *)
Example urljoin_standard_examples :
  map (urljoin "http://a/b/c/d;p?q")
    ["g"; "./g"; "g/"; "/g"; "//g"; "?y"; "g?y"; "#s"; "g#s"; "g?y#s"; ";x";
     "g;x"; "g;x?y#s"; ""; "."; "./"; ".."; "../"; "../g"; "../.."; "../../";
     "../../g"; "../../../g"; "../../../../g"; "/./g"; "/../g"; "g."; ".g";
     "g.."; "..g"; "./../g"; "./g/."; "g/./h"; "g/../h"; "g;x=1/./y";
     "g;x=1/../y"; "g?y/./x"; "g?y/../x"; "g#s/./x"; "g#s/../x"]
  = ["http://a/b/c/g"; "http://a/b/c/g"; "http://a/b/c/g/"; "http://a/g";
     "http://g"; "http://a/b/c/d;p?y"; "http://a/b/c/g?y";
     "http://a/b/c/d;p?q#s"; "http://a/b/c/g#s"; "http://a/b/c/g?y#s";
     "http://a/b/c/;x"; "http://a/b/c/g;x"; "http://a/b/c/g;x?y#s";
     "http://a/b/c/d;p?q"; "http://a/b/c/"; "http://a/b/c/"; "http://a/b/";
     "http://a/b/"; "http://a/b/g"; "http://a/"; "http://a/"; "http://a/g";
     "http://a/g"; "http://a/g"; "http://a/g"; "http://a/g"; "http://a/b/c/g.";
     "http://a/b/c/.g"; "http://a/b/c/g.."; "http://a/b/c/..g"; "http://a/b/g";
     "http://a/b/c/g/"; "http://a/b/c/g/h"; "http://a/b/c/h";
     "http://a/b/c/g;x=1/y"; "http://a/b/c/y"; "http://a/b/c/g?y/./x";
     "http://a/b/c/g?y/../x"; "http://a/b/c/g#s/./x"; "http://a/b/c/g#s/../x"].
Proof. vm_compute. reflexivity. Qed.

(** A root with a query, and a reference that names another host. *)
Example urljoin_query_and_host :
  urljoin "http://a/b?x=/y" "g" = "http://a/g"
  ∧ urljoin "https://dashboard.snapcraft.io/dev/api/" "//cdn.example/core.snap"
    = "https://cdn.example/core.snap".
Proof. split; reflexivity. Qed.

Example urljoin_absolute :
  urljoin "https://dashboard.snapcraft.io/dev/api/" "http://cdn.example/a/../b"
  = "http://cdn.example/a/../b".
Proof. reflexivity. Qed.

Example int_of_str_runs :
  (int_of_str " 12 ", int_of_str "-1_000", int_of_str "007", int_of_str "+3",
   int_of_str "", int_of_str "1__0", int_of_str "5x", int_of_str "five")
  = (Some 12, Some (-1000), Some 7, Some 3, None, None, None, None).
Proof. reflexivity. Qed.

(** The file separator (byte 28) is not a blank for [int]. *)
Example int_of_str_file_separator :
  int_of_str (String (ascii_of_nat 28) "8") = None.
Proof. reflexivity. Qed.

(** A variable that does not parse makes the construction fail. *)
Example Client_init_ValueError :
  fst (Client_init {["STORE_RETRIES" := "many"]} "snapcraft/3.0" tt
         "https://dashboard.snapcraft.io/dev/api/" ∅)
  = Raise (ValueError "invalid literal for int() with base 10") None.
Proof. vm_compute. reflexivity. Qed.

(** 503 on the first three attempts, then 200: the caller gets the 200
    response, after three retries. *)
Example flaky_is_transparent :
  execute retries5 (flaky 3) "GET" "https://dashboard.snapcraft.io/" ∅ VNone ∅
  = (Return (response 200), 3%nat)
  ∧ fst (request (managed retries5 (flaky 3)) dashboard "GET" "snap-push/"
           VNone VNone ∅ store)
    = Return (response 200).
Proof. split; vm_compute; reflexivity. Qed.

(** A header and a parameter given to a verb wrapper reach the session:
    the echo session reports the mandatory [User-Agent], the method and the
    final URL. *)
Example verbs_round_trip :
  let kwargs : gmap string value :=
    {["headers" := VDict 2%positive; "params" := VStr "q=1"]} in
  fst (get echo dashboard "snap-push/" kwargs store)
  = Return {| status_code := 200;
              headers := [("method", "GET");
                          ("url", "https://dashboard.snapcraft.io/dev/api/snap-push/")];
              content := "snapcraft/3.0" |}
  ∧ snd (post echo dashboard "snap-push/" kwargs store) !! 2%positive
    = Some ({["Accept" := "application/json"; "User-Agent" := "snapcraft/3.0"]}
            : gmap string string).
Proof. split; vm_compute; reflexivity. Qed.

(** A keyword that names a positional parameter is refused by the call. *)
Example get_method_keyword :
  fst (get echo dashboard "snap-push/" {["method" := VStr "POST"]} store)
  = Raise (TypeError "request() got multiple values for argument") None.
Proof. vm_compute. reflexivity. Qed.

(** An exception of another class passes through [request] unchanged. *)
Example other_exception_propagates :
  fst (request (raising (TransportError "TooManyRedirects" ["RequestException"] ""))
         dashboard "GET" "snap-push/" VNone VNone ∅ store)
  = Raise (TransportError "TooManyRedirects" ["RequestException"] "") None.
Proof. vm_compute. reflexivity. Qed.

(** An instance of a class that inherits from [ConnectionError] is caught
    like an instance of [ConnectionError] itself. *)
Example subclass_is_caught :
  let e := TransportError "ConnectTimeout" ["ConnectionError"; "Timeout"]
             "timed out" in
  fst (request (raising e) dashboard "GET" "snap-push/" VNone VNone ∅ store)
  = Raise (StoreNetworkError e) (Some e).
Proof. vm_compute. reflexivity. Qed.

(** The session of the constructed client retries with the constructed
    policy: five retries in an empty environment. *)
Example built_client_policy :
  Client_init ∅ "snapcraft/3.0" tt "https://dashboard.snapcraft.io/dev/api/" store
  = (Return built, built_store)
  ∧ adapter_for (session built)
      (urljoin (root_url built) "snap-push/")
    = Some {| max_retries := retries5 |}.
Proof. split; vm_compute; reflexivity. Qed.

(** ** The theorems at concrete inputs *)

Lemma request_raises_StoreServerError_witness :
  request (answering 500) dashboard "GET" "snap-push/" VNone VNone ∅ store
  = (Raise (StoreServerError (response 500)) None, store)
  ∧ ∃ (r : Response) (n : nat),
      execute retries5 (always 500) "GET"
        (urljoin (root_url dashboard) "snap-push/")
        (default ∅ (store !! 1%positive)) VNone ∅ = (Return r, n)
      ∧ always 500 "GET" (urljoin (root_url dashboard) "snap-push/")
          (default ∅ (store !! 1%positive)) VNone ∅ n = Answered r
      ∧ status_code r = 500
      ∧ (500 ∈ status_forcelist retries5 → n = Z.to_nat (total retries5))
      ∧ request (managed retries5 (always 500)) dashboard "GET" "snap-push/"
          VNone VNone ∅ store
        = (Raise (StoreServerError r) None, store).
Proof.
  destruct (request_raises_StoreServerError dashboard "GET" "snap-push/"
              VNone VNone ∅ store 1%positive store eq_refl) as [H1 H2].
  split.
  - apply (H1 (answering 500) (response 500)); [reflexivity|].
    vm_compute. discriminate.
  - apply (H2 retries5 (always 500)). intros i. exists (response 500).
    split; reflexivity.
Defined.

Lemma request_raises_StoreNetworkError_witness :
  let outcome :=
    request (raising (ConnectionError "connection reset by peer")) dashboard
      "GET" "snap-push/" VNone VNone ∅ store in
  outcome = (Raise (StoreNetworkError (ConnectionError "connection reset by peer"))
                   (Some (ConnectionError "connection reset by peer")), store)
  ∧ (∀ c', fst outcome ≠ Raise (ConnectionError "connection reset by peer") c')
  ∧ (∀ r, fst outcome ≠ Return r).
Proof.
  apply (request_raises_StoreNetworkError
           (raising (ConnectionError "connection reset by peer")) dashboard
           "GET" "snap-push/" VNone VNone ∅ store 1%positive store
           (ConnectionError "connection reset by peer") None).
  - reflexivity.
  - reflexivity.
  - exists "connection reset by peer". left. reflexivity.
Defined.

Lemma request_returns_response_witness :
  request (answering 404) dashboard "GET" "snap-push/" VNone VNone ∅ store
  = (Return (response 404), store)
  ∧ (status_code (response 404) = 404 →
     ∃ r', fst (request (answering 404) dashboard "GET" "snap-push/"
                  VNone VNone ∅ store) = Return r'
           ∧ status_code r' = 404).
Proof.
  apply (request_returns_response (answering 404) dashboard "GET" "snap-push/"
           VNone VNone ∅ store 1%positive store (response 404)).
  - reflexivity.
  - reflexivity.
  - vm_compute. reflexivity.
Defined.

Lemma request_reset_exhausts_retries_witness :
  let final_url := urljoin (root_url built) "snap-push/" in
  let sent := default ∅ (built_store !! 4%positive) in
  let exhausted := RetryError "retries exhausted" in
  Z.of_nat (Z.to_nat (total retries5)) = Z.max 0 (total retries5)
  ∧ (execute retries5 always_reset "GET" final_url sent VNone ∅
     = (Raise exhausted None, 5%nat)
     ∧ request (session_over always_reset) built "GET" "snap-push/"
         VNone VNone ∅ built_store
       = (Raise (StoreNetworkError exhausted) (Some exhausted), built_store))
  ∧ (execute retries5 (reset_then 6 200) "GET" final_url sent VNone ∅
     = (Raise exhausted None, 5%nat)
     ∧ request (session_over (reset_then 6 200)) built "GET" "snap-push/"
         VNone VNone ∅ built_store
       = (Raise (StoreNetworkError exhausted) (Some exhausted), built_store))
  ∧ (execute retries5 (reset_then 5 200) "GET" final_url sent VNone ∅
     = (Return (response 200), 5%nat)
     ∧ request (session_over (reset_then 5 200)) built "GET" "snap-push/"
         VNone VNone ∅ built_store
       = (Return (response 200), built_store)).
Proof.
  intros final_url sent exhausted.
  destruct (request_reset_exhausts_retries always_reset built "GET" "snap-push/"
              VNone VNone ∅ built_store 4%positive built_store retries5
              eq_refl eq_refl) as (Hn & Hall & _).
  destruct (request_reset_exhausts_retries (reset_then 6 200) built "GET"
              "snap-push/" VNone VNone ∅ built_store 4%positive built_store
              retries5 eq_refl eq_refl) as (_ & Hsix & _).
  destruct (request_reset_exhausts_retries (reset_then 5 200) built "GET"
              "snap-push/" VNone VNone ∅ built_store 4%positive built_store
              retries5 eq_refl eq_refl) as (_ & _ & Hfive).
  split; [exact Hn|]. split; [|split].
  - apply Hall. intros i Hi. reflexivity.
  - apply Hsix. intros i Hi.
    do 6 (destruct i as [|i]; [reflexivity|]). simpl in Hi. lia.
  - apply (Hfive 5%nat (response 200)).
    + simpl. lia.
    + intros i Hi. do 5 (destruct i as [|i]; [reflexivity|]). lia.
    + reflexivity.
    + apply (proj1 (bool_decide_eq_false _)). reflexivity.
Defined.

Lemma merged_headers_mandatory_win_witness :
  (∃ l' σ1 (merged : gmap string string),
      merge_headers dashboard (VDict 2%positive) store = (Return l', σ1)
      ∧ σ1 !! l' = Some merged
      ∧ (∀ k, agent !! k = None → merged !! k = caller_headers !! k)
      ∧ (∀ k v, agent !! k = Some v → merged !! k = Some v)
      ∧ (∀ (session_request : transport) method url params kwargs,
            request session_request dashboard method url params
              (VDict 2%positive) kwargs store =
            request (fun s m u _ ps kw => session_request s m u merged ps kw)
              dashboard method url params (VDict 2%positive) kwargs store))
  ∧ (merge_headers dashboard VNone store = (Return 1%positive, store)
     ∧ ∀ (session_request : transport) method url params kwargs,
         request session_request dashboard method url params VNone kwargs store =
         request (fun s m u _ ps kw => session_request s m u agent ps kw)
           dashboard method url params VNone kwargs store).
Proof.
  apply (merged_headers_mandatory_win dashboard store 2%positive caller_headers agent).
  - reflexivity.
  - reflexivity.
Defined.

Lemma request_updates_caller_headers_witness :
  let σ' := snd (request echo dashboard "POST" "snap-push/" VNone
                   (VDict 2%positive) ∅ store) in
  (caller_headers ≠ ∅ →
     ∃ H' : gmap string string,
       σ' !! 2%positive = Some H'
       ∧ (∀ k v, agent !! k = Some v → H' !! k = Some v)
       ∧ (∀ k, agent !! k = None → H' !! k = caller_headers !! k)
       ∧ (∀ l', l' ≠ 2%positive → σ' !! l' = store !! l'))
  ∧ (caller_headers = ∅ → σ' = store)
  ∧ snd (request echo dashboard "POST" "snap-push/" VNone VNone ∅ store) = store.
Proof.
  apply (request_updates_caller_headers echo dashboard "POST" "snap-push/" VNone ∅
           store 2%positive caller_headers agent).
  - reflexivity.
  - reflexivity.
Defined.

Lemma absolute_url_ignores_root_witness :
  urljoin "https://staging.example/api/" "https://cdn.example/snaps/core.snap"
  = "https://cdn.example/snaps/core.snap"
  ∧ request echo
      {| conf := conf dashboard; root_url := "https://staging.example/api/";
         session := session dashboard;
         _snapcraft_headers := _snapcraft_headers dashboard |}
      "GET" "https://cdn.example/snaps/core.snap" VNone VNone ∅ store
    = request echo dashboard "GET" "https://cdn.example/snaps/core.snap"
        VNone VNone ∅ store.
Proof.
  apply (absolute_url_ignores_root echo dashboard "https://staging.example/api/"
           "https://cdn.example/snaps/core.snap" "GET" VNone VNone ∅ store).
  reflexivity.
Defined.



Lemma verbs_forward_to_request_witness :
  let kwargs : gmap string value :=
    {["headers" := VDict 2%positive; "params" := VStr "q=1";
      "timeout" := VInt 30]} in
  (get echo dashboard "snap-push/" kwargs store
   = request echo dashboard "GET" "snap-push/" (VStr "q=1") (VDict 2%positive)
       {["timeout" := VInt 30]} store
   ∧ post echo dashboard "snap-push/" kwargs store
     = request echo dashboard "POST" "snap-push/" (VStr "q=1") (VDict 2%positive)
         {["timeout" := VInt 30]} store
   ∧ put echo dashboard "snap-push/" kwargs store
     = request echo dashboard "PUT" "snap-push/" (VStr "q=1") (VDict 2%positive)
         {["timeout" := VInt 30]} store)
  ∧ get echo dashboard "snap-push/" {["method" := VStr "POST"]} store
    = (Raise (TypeError "request() got multiple values for argument") None, store).
Proof.
  intros kwargs. split.
  - destruct (proj1 (verbs_forward_to_request echo dashboard "snap-push/" kwargs
                       store) eq_refl eq_refl eq_refl) as (Hget & Hpost & Hput).
    rewrite Hget, Hpost, Hput. repeat split; vm_compute; reflexivity.
  - apply (proj2 (verbs_forward_to_request echo dashboard "snap-push/"
                    {["method" := VStr "POST"]} store)).
    right. left. vm_compute. eauto.
Defined.

Lemma retry_policy_from_environment_witness :
  ∃ (c : Client unit) σ',
    Client_init {["STORE_RETRIES" := "7"]} "snapcraft/3.0" tt
      "https://dashboard.snapcraft.io/dev/api/" ∅ = (Return c, σ')
    ∧ mounted_retry c "http://"
      = Some {| total := 7; backoff_factor := 2;
                status_forcelist := [104; 500; 502; 503; 504] |}
    ∧ mounted_retry c "https://" = mounted_retry c "http://"
    ∧ (({["STORE_RETRIES" := "7"]} : gmap string string) !! "STORE_RETRIES" = None
       → 7 = 5)
    ∧ (({["STORE_RETRIES" := "7"]} : gmap string string) !! "STORE_BACKOFF" = None
       → 2 = 2)
    ∧ (∀ s, ({["STORE_RETRIES" := "7"]} : gmap string string) !! "STORE_RETRIES"
            = Some s → int_of_str s = Some 7)
    ∧ (∀ s, ({["STORE_RETRIES" := "7"]} : gmap string string) !! "STORE_BACKOFF"
            = Some s → int_of_str s = Some 2).
Proof.
  apply (retry_policy_from_environment {["STORE_RETRIES" := "7"]} "snapcraft/3.0"
           tt "https://dashboard.snapcraft.io/dev/api/" ∅ 7 2).
  - vm_compute. reflexivity.
  - vm_compute. reflexivity.
Defined.

(* ===================================================================== *)
(** * Further properties of [request] *)
(* ===================================================================== *)

Section RequestOutcomes.
Context {Conf : Type}.
Implicit Types (self : Client Conf) (σ : heap) (l : loc).
Implicit Types (session_request : transport).

(** What a returned response tells about the call. *)
Lemma request_Return_inv session_request
    self method url params headers kwargs σ (r : Response) σ' :
  request session_request self method url params headers kwargs σ = (Return r, σ') →
  status_code r < 500
  ∧ ∃ l, merge_headers self headers σ = (Return l, σ')
         ∧ session_request (session self) method (urljoin (root_url self) url)
             (default ∅ (σ' !! l)) params kwargs = Return r.
Proof.
  unfold request.
  destruct (merge_headers self headers σ) as [[l|e c] σ1]; [|discriminate].
  destruct (session_request _ _ _ _ _ _) as [r'|e c] eqn:Hs.
  - destruct (500 <=? status_code r') eqn:Hc; [discriminate|].
    intros [= <- <-]. apply Z.leb_gt in Hc. eauto.
  - destruct (caught e); discriminate.
Qed.

(** A response that [request] returns is the one the session returned, and
    its status code is below 500: no call of [request], with any session and
    any arguments, returns a 5xx response. *)
Theorem request_never_returns_5xx session_request
    self method url params headers kwargs σ (r : Response) σ' :
  request session_request self method url params headers kwargs σ = (Return r, σ') →
  status_code r < 500
  ∧ ∃ l, merge_headers self headers σ = (Return l, σ')
         ∧ session_request (session self) method (urljoin (root_url self) url)
             (default ∅ (σ' !! l)) params kwargs = Return r.
Proof. apply request_Return_inv. Qed.

(** An exception of the session that is not an instance of
    [ConnectionError] or [RetryError] (neither of these classes nor a class
    that inherits from one of them) is not caught: [request] raises it as
    it is, with the cause it had. *)
Theorem request_propagates_other_exceptions session_request
    self method url params headers kwargs σ l σ1 (e : exc) (c : option exc) :
  merge_headers self headers σ = (Return l, σ1) →
  session_request (session self) method (urljoin (root_url self) url)
    (default ∅ (σ1 !! l)) params kwargs = Raise e c →
  (∀ msg, e ≠ ConnectionError msg) →
  (∀ msg, e ≠ RetryError msg) →
  (∀ cls bases msg, e = TransportError cls bases msg →
     ("ConnectionError" ∉ bases) ∧ ("RetryError" ∉ bases)) →
  request session_request self method url params headers kwargs σ = (Raise e c, σ1).
Proof.
  intros Hm He Hc Hr Hb. rewrite (request_dispatch _ _ _ _ _ _ _ _ _ _ Hm), He.
  destruct e; try reflexivity; [now destruct (Hc msg)|now destruct (Hr msg)|].
  destruct (Hb _ _ _ eq_refl) as [H1 H2]. simpl.
  rewrite bool_decide_eq_false_2; [reflexivity|tauto].
Qed.

(** A header argument that is false ([None], an empty dictionary, an empty
    string, zero) is handled like no headers at all. A string that is not
    empty and an integer that is not zero, which have no [update], stop
    the call with [AttributeError] before the session is asked, and the
    heap is left as it was. *)
Theorem request_headers_truthiness session_request
    self method url params headers kwargs σ :
  (truthy σ headers = false →
     request session_request self method url params headers kwargs σ
     = request session_request self method url params VNone kwargs σ)
  ∧ (∀ s, s ≠ "" →
       request session_request self method url params (VStr s) kwargs σ
       = (Raise (AttributeError "object has no attribute 'update'") None, σ))
  ∧ (∀ n, n ≠ 0 →
       request session_request self method url params (VInt n) kwargs σ
       = (Raise (AttributeError "object has no attribute 'update'") None, σ)).
Proof.
  split; [|split].
  - intros Hf. unfold request, merge_headers. rewrite Hf. reflexivity.
  - intros s Hs. unfold request, merge_headers. simpl.
    now rewrite (proj2 (String.eqb_neq s "") Hs).
  - intros n Hn. unfold request, merge_headers. simpl.
    now rewrite (proj2 (Z.eqb_neq n 0) Hn).
Qed.

(** The header step leaves the client's own dictionary as it was. *)
Lemma merge_headers_mandatory_kept self headers σ :
  snd (merge_headers self headers σ) !! _snapcraft_headers self
  = σ !! _snapcraft_headers self.
Proof.
  unfold merge_headers. destruct (truthy σ headers) eqn:Ht; [|reflexivity].
  destruct headers as [|s|n|l]; try reflexivity. simpl in *.
  destruct (decide (l = _snapcraft_headers self)) as [->|Hne].
  - rewrite lookup_insert_eq. unfold dict_update.
    destruct (σ !! _snapcraft_headers self) as [M|]; [|discriminate]. simpl.
    now rewrite (idemp_L (∪) M).
  - now rewrite lookup_insert_ne.
Qed.

(** [request] never changes the client's own header dictionary, and no
    object other than the dictionary given as [headers] changes. *)
Theorem request_preserves_client_headers session_request
    self method url params headers kwargs σ :
  let σ' := snd (request session_request self method url params headers kwargs σ) in
  σ' !! _snapcraft_headers self = σ !! _snapcraft_headers self
  ∧ (∀ l', headers ≠ VDict l' → σ' !! l' = σ !! l').
Proof.
  intros σ'. unfold σ'. rewrite request_heap. split.
  - apply merge_headers_mandatory_kept.
  - intros l' Hne. unfold merge_headers.
    destruct (truthy σ headers); [|reflexivity].
    destruct headers as [|s|n|l]; try reflexivity. simpl.
    apply lookup_insert_ne. congruence.
Qed.

(** The header step on the heap it has produced does nothing more. *)
Lemma merge_headers_stable self headers σ :
  merge_headers self headers (snd (merge_headers self headers σ))
  = merge_headers self headers σ.
Proof.
  pose proof (merge_headers_mandatory_kept self headers σ) as Hk.
  unfold merge_headers in *. destruct (truthy σ headers) eqn:Ht.
  - destruct headers as [|s|n|l]; simpl in *; try now rewrite Ht.
    destruct (σ !! l) as [H|] eqn:Hl; [|discriminate]. simpl in *.
    apply negb_true_iff, bool_decide_eq_false in Ht.
    rewrite lookup_insert_eq. unfold dict_update in *.
    set (M := default ∅ (σ !! _snapcraft_headers self)) in *.
    assert (Hne : M ∪ H ≠ ∅).
    { intros He. apply Ht. apply map_eq. intros k. rewrite lookup_empty.
      apply (f_equal (λ m : gmap string string, m !! k)) in He.
      rewrite lookup_empty, lookup_union in He.
      destruct (M !! k), (H !! k); try discriminate; reflexivity. }
    rewrite bool_decide_eq_false_2 by exact Hne. simpl.
    rewrite Hk. fold M. rewrite insert_insert_eq.
    now rewrite (assoc_L (∪)), (idemp_L (∪) M).
  - simpl. now rewrite Ht.
Qed.

(** The caller's dictionary is updated once: after a call of [request], a
    further call with the same [headers] argument, whatever its session,
    method, URL and other arguments, leaves the heap as the first call
    left it, and its header step names the same dictionary again. *)
Theorem request_heap_idempotent session_request (other : transport)
    self method url params headers kwargs method' url' params' kwargs' σ :
  let σ1 := snd (request session_request self method url params headers kwargs σ) in
  snd (request other self method' url' params' headers kwargs' σ1) = σ1
  ∧ merge_headers self headers σ1 = (fst (merge_headers self headers σ), σ1).
Proof.
  intros σ1. unfold σ1. rewrite !request_heap, merge_headers_stable.
  split; [reflexivity|]. now destruct (merge_headers self headers σ).
Qed.

End RequestOutcomes.

(* ===================================================================== *)
(** * Further properties of the construction and of the verbs *)
(* ===================================================================== *)

Section ConstructionFacts.
Context {Conf : Type}.
Implicit Types (environ : gmap string string) (σ : heap).

Lemma int_env_Raise_iff environ name d :
  (∃ s, environ !! name = Some s ∧ int_of_str s = None)
  ↔ int_env environ name d
    = Raise (ValueError "invalid literal for int() with base 10") None.
Proof.
  unfold int_env. split.
  - intros (s & -> & ->). reflexivity.
  - destruct (environ !! name) as [s|]; [|discriminate].
    destruct (int_of_str s) eqn:Hs; [discriminate|]. eauto.
Qed.

Lemma int_env_cases environ name d :
  (∃ n, int_env environ name d = Return n)
  ∨ int_env environ name d
    = Raise (ValueError "invalid literal for int() with base 10") None.
Proof.
  unfold int_env. destruct (environ !! name) as [s|]; [|eauto].
  destruct (int_of_str s); eauto.
Qed.

(** What a constructed client tells about the construction. *)
Lemma Client_init_Return_inv environ user_agent (conf0 : Conf) root σ
    (c : Client Conf) σ' :
  Client_init environ user_agent conf0 root σ = (Return c, σ') →
  conf c = conf0 ∧ root_url c = root
  ∧ _snapcraft_headers c = fresh_loc σ
  ∧ σ' = <[fresh_loc σ := {["User-Agent" := user_agent]}]> σ.
Proof.
  unfold Client_init.
  destruct (int_env environ "STORE_RETRIES" 5) as [t|]; [|discriminate].
  destruct (int_env environ "STORE_BACKOFF" 2) as [b|]; [|discriminate].
  intros [= <- <-]. repeat split.
Qed.

Lemma fresh_loc_unused σ : σ !! fresh_loc σ = None.
Proof. apply not_elem_of_dom. unfold fresh_loc. apply is_fresh. Qed.

(** When STORE_RETRIES or STORE_BACKOFF is set to an ASCII string that
    [int] rejects, the construction raises [ValueError], and no header
    dictionary has been created: the heap is as it was. *)
Theorem Client_init_rejects_bad_integer environ user_agent (conf0 : Conf) root σ
    (name s : string) :
  name = "STORE_RETRIES" ∨ name = "STORE_BACKOFF" →
  environ !! name = Some s →
  forall_chars (fun a => (nat_of_ascii a <? 128)%nat) s = true →
  int_of_str s = None →
  Client_init environ user_agent conf0 root σ
  = (Raise (ValueError "invalid literal for int() with base 10") None, σ).
Proof.
  intros Hname Hs _ Hint.
  assert (Hbad : int_env environ name 5
                 = Raise (ValueError "invalid literal for int() with base 10") None
                 ∧ int_env environ name 2
                   = Raise (ValueError "invalid literal for int() with base 10") None).
  { split; apply int_env_Raise_iff; eauto. }
  destruct Hbad as [H5 H2]. unfold Client_init.
  destruct Hname as [-> | ->].
  - now rewrite H5.
  - destruct (int_env_cases environ "STORE_RETRIES" 5) as [[t ->]| ->];
      [now rewrite H2|reflexivity].
Qed.

(** The header dictionary of a new client is a new object: it was not in
    the heap before, it holds the [User-Agent] entry alone, and every object
    that was there is unchanged. The client keeps the configuration and the
    root URL it was given. *)
Theorem Client_init_allocates environ user_agent (conf0 : Conf) root σ
    (c : Client Conf) σ' :
  Client_init environ user_agent conf0 root σ = (Return c, σ') →
  σ !! _snapcraft_headers c = None
  ∧ σ' !! _snapcraft_headers c = Some {["User-Agent" := user_agent]}
  ∧ (∀ l d, σ !! l = Some d → σ' !! l = Some d)
  ∧ conf c = conf0 ∧ root_url c = root.
Proof.
  intros (Hc & Hr & Hl & ->)%Client_init_Return_inv. rewrite Hl.
  pose proof (fresh_loc_unused σ) as Hf.
  split; [exact Hf|]. split; [apply lookup_insert_eq|]. split; [|auto].
  intros l d Hd. rewrite lookup_insert_ne; [exact Hd|].
  intros <-. unfold loc in *. congruence.
Qed.

(** Two clients constructed one after the other do not share their header
    dictionary, and constructing the second leaves the first one's as it
    was. *)
Theorem clients_do_not_share_headers
    environ1 agent1 (conf1 : Conf) root1 environ2 agent2 (conf2 : Conf) root2
    σ (c1 c2 : Client Conf) σ1 σ2 :
  Client_init environ1 agent1 conf1 root1 σ = (Return c1, σ1) →
  Client_init environ2 agent2 conf2 root2 σ1 = (Return c2, σ2) →
  _snapcraft_headers c1 ≠ _snapcraft_headers c2
  ∧ σ2 !! _snapcraft_headers c1 = Some {["User-Agent" := agent1]}
  ∧ σ2 !! _snapcraft_headers c2 = Some {["User-Agent" := agent2]}.
Proof.
  intros (_ & _ & Hl1 & ->)%Client_init_Return_inv
         (_ & _ & Hl2 & ->)%Client_init_Return_inv.
  rewrite Hl1, Hl2.
  set (σ1 := <[fresh_loc σ := {["User-Agent" := agent1]}]> σ).
  assert (Hne : fresh_loc σ ≠ fresh_loc σ1).
  { intros Heq. pose proof (fresh_loc_unused σ1) as Hf. rewrite <- Heq in Hf.
    unfold σ1 in Hf at 1. now rewrite lookup_insert_eq in Hf. }
  split; [exact Hne|]. split.
  - rewrite lookup_insert_ne by congruence. apply lookup_insert_eq.
  - apply lookup_insert_eq.
Qed.

(** Every request of a constructed client reaches the session with the
    client's [User-Agent], also when the caller's headers give another one:
    forcing that entry on what the session receives changes nothing. This
    holds on the heap left by the construction and on every heap that keeps
    the client's dictionary, which is the case after each request. *)
Theorem constructed_client_sends_user_agent
    environ user_agent (conf0 : Conf) root σ0 (c : Client Conf) σ1 :
  Client_init environ user_agent conf0 root σ0 = (Return c, σ1) →
  ∀ σ, σ !! _snapcraft_headers c = σ1 !! _snapcraft_headers c →
  ∀ (session_request : transport) method url params headers kwargs,
    request session_request c method url params headers kwargs σ
    = request (fun s m u h ps kw =>
                 session_request s m u (<["User-Agent" := user_agent]> h) ps kw)
        c method url params headers kwargs σ
    ∧ snd (request session_request c method url params headers kwargs σ)
        !! _snapcraft_headers c
      = σ1 !! _snapcraft_headers c.
Proof.
  intros (_ & _ & Hl & ->)%Client_init_Return_inv σ Hσ.
  assert (HM : σ !! _snapcraft_headers c = Some {["User-Agent" := user_agent]}).
  { rewrite Hσ, Hl. apply lookup_insert_eq. }
  intros session_request method url params headers kwargs. split.
  - destruct (merge_headers c headers σ) as [[l|e k] σ'] eqn:Hm.
    + rewrite !(request_dispatch _ _ _ _ _ _ _ _ _ _ Hm).
      assert (Hua : default ∅ (σ' !! l) !! "User-Agent" = Some user_agent).
      { revert Hm. unfold merge_headers.
        destruct (truthy σ headers) eqn:Ht.
        - destruct headers as [|s|n|l0]; try discriminate.
          intros [= <- <-]. rewrite lookup_insert_eq. simpl.
          rewrite HM. simpl. unfold dict_update.
          apply lookup_union_Some_l, lookup_singleton_eq.
        - intros [= <- <-]. rewrite HM. simpl. apply lookup_singleton_eq. }
      now rewrite (insert_id _ _ _ Hua).
    + unfold request. now rewrite Hm.
  - rewrite request_heap, merge_headers_mandatory_kept. exact Hσ.
Qed.

End ConstructionFacts.

Section VerbFacts.
Context {Conf : Type}.
Variable session_request : transport.
Implicit Types (self : Client Conf) (σ : heap).

Lemma request_kw_Return_inv self method url (kwargs : gmap string value) σ
    (r : Response) σ' :
  request_kw session_request self method url kwargs σ = (Return r, σ') →
  status_code r < 500
  ∧ ∃ l, session_request (session self) method (urljoin (root_url self) url)
           (default ∅ (σ' !! l)) (default VNone (kwargs !! "params"))
           (delete "params" (delete "headers" kwargs)) = Return r.
Proof.
  unfold request_kw. case_bool_decide; [discriminate|].
  intros (Hs & l & _ & Hr)%request_Return_inv. eauto.
Qed.

(** A response returned by [get], [post] or [put] has a status code below
    500, and is what the session returned for the method of that wrapper,
    the resolved URL, the [params] keyword and the keywords other than
    [params] and [headers]. *)
Theorem verbs_never_return_5xx self url (kwargs : gmap string value) σ
    (r : Response) σ' :
  let answered method :=
    status_code r < 500
    ∧ ∃ l, session_request (session self) method (urljoin (root_url self) url)
             (default ∅ (σ' !! l)) (default VNone (kwargs !! "params"))
             (delete "params" (delete "headers" kwargs)) = Return r in
  (get session_request self url kwargs σ = (Return r, σ') → answered "GET")
  ∧ (post session_request self url kwargs σ = (Return r, σ') → answered "POST")
  ∧ (put session_request self url kwargs σ = (Return r, σ') → answered "PUT").
Proof.
  intros answered. unfold answered, get, post, put.
  split; [|split]; intros Hcall; now apply request_kw_Return_inv in Hcall.
Qed.

End VerbFacts.

(** ** The further properties at concrete inputs *)

Lemma request_never_returns_5xx_witness :
  status_code (response 404) < 500
  ∧ ∃ l, merge_headers dashboard VNone store = (Return l, store)
         ∧ answering 404 (session dashboard) "GET"
             (urljoin (root_url dashboard) "snap-push/")
             (default ∅ (store !! l)) VNone ∅ = Return (response 404).
Proof.
  apply (request_never_returns_5xx (answering 404) dashboard "GET" "snap-push/"
           VNone VNone ∅ store (response 404) store).
  reflexivity.
Defined.

Lemma request_propagates_other_exceptions_witness :
  let e := TransportError "TooManyRedirects" ["RequestException"; "OSError"]
             "Exceeded 30 redirects." in
  request (raising e) dashboard "GET" "snap-push/" VNone (VDict 2%positive) ∅ store
  = (Raise e None, <[2%positive := agent ∪ caller_headers]> store).
Proof.
  intros e.
  apply (request_propagates_other_exceptions (raising e) dashboard "GET"
           "snap-push/" VNone (VDict 2%positive) ∅ store 2%positive).
  - reflexivity.
  - reflexivity.
  - discriminate.
  - discriminate.
  - intros cls bases msg [= <- <- <-].
    split; apply (proj1 (bool_decide_eq_false _)); reflexivity.
Defined.

Lemma request_headers_truthiness_witness :
  request echo dashboard "GET" "snap-push/" VNone (VStr "") ∅ store
  = request echo dashboard "GET" "snap-push/" VNone VNone ∅ store
  ∧ request echo dashboard "GET" "snap-push/" VNone (VDict 3%positive) ∅ store
    = request echo dashboard "GET" "snap-push/" VNone VNone ∅ store
  ∧ request echo dashboard "GET" "snap-push/" VNone (VStr "Accept: */*") ∅ store
    = (Raise (AttributeError "object has no attribute 'update'") None, store)
  ∧ request echo dashboard "GET" "snap-push/" VNone (VInt 1) ∅ store
    = (Raise (AttributeError "object has no attribute 'update'") None, store).
Proof.
  split; [|split; [|split]].
  - apply (proj1 (request_headers_truthiness echo dashboard "GET" "snap-push/"
                    VNone (VStr "") ∅ store)). reflexivity.
  - apply (proj1 (request_headers_truthiness echo dashboard "GET" "snap-push/"
                    VNone (VDict 3%positive) ∅ store)). reflexivity.
  - apply (proj1 (proj2 (request_headers_truthiness echo dashboard "GET"
                           "snap-push/" VNone VNone ∅ store))). discriminate.
  - apply (proj2 (proj2 (request_headers_truthiness echo dashboard "GET"
                           "snap-push/" VNone VNone ∅ store))). discriminate.
Defined.

Lemma request_preserves_client_headers_witness :
  let σ' := snd (request echo dashboard "GET" "snap-push/" VNone
                   (VDict 2%positive) ∅ store) in
  σ' !! 1%positive = Some agent ∧ σ' !! 3%positive = Some ∅.
Proof.
  destruct (request_preserves_client_headers echo dashboard "GET" "snap-push/"
              VNone (VDict 2%positive) ∅ store) as [Hown Hothers].
  split.
  - exact Hown.
  - apply (Hothers 3%positive). discriminate.
Defined.

Lemma Client_init_rejects_bad_integer_witness :
  Client_init {["STORE_BACKOFF" := "2.5"]} "snapcraft/3.0" tt
    "https://dashboard.snapcraft.io/dev/api/" store
  = (Raise (ValueError "invalid literal for int() with base 10") None, store).
Proof.
  apply (Client_init_rejects_bad_integer {["STORE_BACKOFF" := "2.5"]}
           "snapcraft/3.0" tt "https://dashboard.snapcraft.io/dev/api/" store
           "STORE_BACKOFF" "2.5").
  - right. reflexivity.
  - vm_compute. reflexivity.
  - reflexivity.
  - reflexivity.
Defined.

Lemma Client_init_allocates_witness :
  store !! 4%positive = None
  ∧ built_store !! 4%positive = Some {["User-Agent" := "snapcraft/3.0"]}
  ∧ (∀ l d, store !! l = Some d → built_store !! l = Some d)
  ∧ conf built = tt
  ∧ root_url built = "https://dashboard.snapcraft.io/dev/api/".
Proof.
  apply (Client_init_allocates ∅ "snapcraft/3.0" tt
           "https://dashboard.snapcraft.io/dev/api/" store built built_store).
  vm_compute. reflexivity.
Defined.

Lemma clients_do_not_share_headers_witness :
  _snapcraft_headers built ≠ _snapcraft_headers built_next
  ∧ <[5%positive := {["User-Agent" := "snapcraft/4.0"]}]> built_store
      !! _snapcraft_headers built
    = Some {["User-Agent" := "snapcraft/3.0"]}
  ∧ <[5%positive := {["User-Agent" := "snapcraft/4.0"]}]> built_store
      !! _snapcraft_headers built_next
    = Some {["User-Agent" := "snapcraft/4.0"]}.
Proof.
  apply (clients_do_not_share_headers
           ∅ "snapcraft/3.0" tt "https://dashboard.snapcraft.io/dev/api/"
           ∅ "snapcraft/4.0" tt "https://api.snapcraft.io/"
           store built built_next built_store
           (<[5%positive := {["User-Agent" := "snapcraft/4.0"]}]> built_store)).
  - vm_compute. reflexivity.
  - vm_compute. reflexivity.
Defined.

Lemma constructed_client_sends_user_agent_witness :
  request echo built "GET" "snap-push/" VNone (VDict 2%positive) ∅ built_store
  = request (fun s m u h ps kw => echo s m u (<["User-Agent" := "snapcraft/3.0"]> h) ps kw)
      built "GET" "snap-push/" VNone (VDict 2%positive) ∅ built_store
  ∧ snd (request echo built "GET" "snap-push/" VNone (VDict 2%positive) ∅ built_store)
      !! _snapcraft_headers built
    = built_store !! _snapcraft_headers built.
Proof.
  apply (constructed_client_sends_user_agent ∅ "snapcraft/3.0" tt
           "https://dashboard.snapcraft.io/dev/api/" store built built_store).
  - vm_compute. reflexivity.
  - reflexivity.
Defined.

Lemma verbs_never_return_5xx_witness :
  status_code (response 404) < 500
  ∧ ∃ l, answering 404 (session dashboard) "PUT"
           (urljoin (root_url dashboard) "snap-push/")
           (default ∅ (store !! l))
           (default VNone (({["params" := VStr "q=1"]} : gmap string value) !! "params"))
           (delete "params" (delete "headers" {["params" := VStr "q=1"]}))
         = Return (response 404).
Proof.
  destruct (verbs_never_return_5xx (answering 404) dashboard "snap-push/"
              {["params" := VStr "q=1"]} store (response 404) store)
    as (_ & _ & Hput).
  apply Hput. vm_compute. reflexivity.
Defined.

(** The caller's [User-Agent] is replaced on the way to the session. *)
Example built_client_overrides_user_agent :
  fst (request echo built "GET" "snap-push/" VNone (VDict 2%positive) ∅ built_store)
  = Return {| status_code := 200;
              headers := [("method", "GET");
                          ("url", "https://dashboard.snapcraft.io/dev/api/snap-push/")];
              content := "snapcraft/3.0" |}.
Proof. vm_compute. reflexivity. Qed.
